(** * app/api.py: the inference-serving endpoints

    A shallow embedding of [app/api.py]: the module global [artifacts],
    the start-up hook [load_artifacts], the decorator [construct_response]
    and the five endpoint functions.  Python values are an inductive type
    whose dictionaries are finite maps keyed by strings; a function that
    may raise returns a [result]; code that reads or writes the module
    global, the file system, the clock or an external service runs in a
    small state-and-exception monad over a [World]. *)

From Stdlib Require Import ZArith String Ascii List.
From Stdlib Require Import Floats.SpecFloat.
From stdpp Require Import gmap strings list fin_maps.

Local Open Scope string_scope.
Local Open Scope Z_scope.

(** ** Python values *)

#[local] Set Warnings "-register-all".

(** The values that flow through the endpoints.  [VNamespace] is an
    [argparse.Namespace]-like object: its attributes live in [__dict__],
    which [vars] returns. *)
Inductive value : Type :=
  | VNone
  | VBool (b : bool)
  | VInt (z : Z)
  | VFloat (f : spec_float)
  | VStr (s : string)
  | VList (l : list value)
  | VDict (d : gmap string value)
  | VNamespace (d : gmap string value).

(** The exceptions the module can raise, plus the ones its collaborators
    raise ([ServiceError], opaque to this module). *)
Inductive exn : Type :=
  | NameError (name : string)
  | KeyError (key : string)
  | AttributeError (attr : string)
  | TypeError
  | OSError
  | UnicodeDecodeError
  | ServiceError (msg : string).

Inductive result (A : Type) : Type :=
  | Ok (a : A)
  | Raise (e : exn).

Arguments Ok {A} a.
Arguments Raise {A} e.

Definition rbind {A B : Type} (r : result A) (k : A -> result B) : result B :=
  match r with
  | Ok a => k a
  | Raise e => Raise e
  end.

(** ** Python built-ins used by the module *)

(** [s.split(sep)] for a one-character separator: one more piece than
    there are separators, empty pieces kept. *)
Fixpoint split (sep : ascii) (s : string) : list string :=
  match s with
  | EmptyString => [EmptyString]
  | String c s' =>
      if Ascii.eqb c sep then EmptyString :: split sep s'
      else match split sep s' with
           | [] => [String c EmptyString]
           | w :: ws => String c w :: ws
           end
  end.

(** [d.get(key, default)] on a dictionary. *)
Definition dict_get (d : gmap string value) (key : string) (dflt : value) : value :=
  match d !! key with
  | Some v => v
  | None => dflt
  end.

(** [obj.get(key, default)] on any value: only a [dict] has the method. *)
Definition get (obj : value) (key : string) (dflt : value) : result value :=
  match obj with
  | VDict d => Ok (dict_get d key dflt)
  | _ => Raise (AttributeError "get")
  end.

(** [d[key]] on a dictionary. *)
Definition dict_getitem (d : gmap string value) (key : string) : result value :=
  match d !! key with
  | Some v => Ok v
  | None => Raise (KeyError key)
  end.

(** [key in d] on a dictionary. *)
Definition contains (d : gmap string value) (key : string) : bool :=
  match d !! key with
  | Some _ => true
  | None => false
  end.

(** [obj[key]] for a string key. *)
Definition getitem (obj : value) (key : string) : result value :=
  match obj with
  | VDict d => dict_getitem d key
  | _ => Raise TypeError
  end.

(** [vars(obj)]: the [__dict__] of an object that has one. *)
Definition vars (obj : value) : result (gmap string value) :=
  match obj with
  | VNamespace d => Ok d
  | _ => Raise TypeError
  end.

(** Whitespace as [str.strip] sees it in ASCII: space, tab, line feed,
    vertical tab, form feed, carriage return and the four separators. *)
Definition is_space (c : ascii) : bool :=
  let n := nat_of_ascii c in
  ((n =? 32) || ((9 <=? n) && (n <=? 13)) || ((28 <=? n) && (n <=? 31)))%nat.

Fixpoint lstrip (s : string) : string :=
  match s with
  | EmptyString => EmptyString
  | String c s' => if is_space c then lstrip s' else s
  end.

Fixpoint string_rev (s : string) : string :=
  match s with
  | EmptyString => EmptyString
  | String c s' => string_rev s' ++ String c EmptyString
  end.

(** The trimming the specification describes for the run identifier
    ("trimmed of surrounding whitespace/newlines"), written from the
    specification's words for comparison with [load_artifacts]; the
    module itself never calls it. *)
Definition spec_trim (s : string) : string :=
  string_rev (lstrip (string_rev (lstrip s))).

(** [http.HTTPStatus]: an integer enumeration whose members carry a
    reason phrase. *)
Module HTTPStatus.
Record t : Type := { code : Z; phrase : string }.
Definition OK : t := {| code := 200; phrase := "OK" |}.
Definition to_value (s : t) : value := VInt (code s).
End HTTPStatus.

(** ** The nested-key loop of [_performance]

    [[
        for key in filter.split("."):
            performance = performance.get(key, {})
    ]] *)
Fixpoint resolve_keys (performance : value) (keys : list string) : result value :=
  match keys with
  | [] => Ok performance
  | key :: keys' =>
      rbind (get performance key (VDict ∅)) (fun performance' =>
      resolve_keys performance' keys')
  end.

Definition resolve (performance : value) (filter : string) : result value :=
  resolve_keys performance (split "." filter).

(** ** The world the module runs in *)

(** What the module does to its collaborators, in order. *)
Inductive event : Type :=
  | EvLoadArtifacts (run_id : string)
  | EvLogInfo (msg : string)
  | EvPredict (texts : list string) (bundle : value).

(** [pathlib.Path(dir, name)], kept as its two parts. *)
Definition Path (dir name : string) : string * string := (dir, name).

Record World : Type := mkWorld {
  (** the module global [artifacts]; [None] while the name is unbound *)
  artifacts : option value;
  (** the files that open and decode, by path, with the text [read]
      returns *)
  files : gmap (string * string) string;
  (** the files that open but whose bytes are not text in the default
      encoding *)
  undecodable : gset (string * string);
  (** what [datetime.now().isoformat()] returns *)
  clock : string;
  (** the calls made so far, oldest first *)
  calls : list event
}.

(** A computation reads and writes the world and may raise; what it did
    to the world before raising stays done. *)
Definition M (A : Type) : Type := World -> result A * World.

Definition ret {A : Type} (a : A) : M A := fun w => (Ok a, w).

Definition bind {A B : Type} (m : M A) (k : A -> M B) : M B :=
  fun w =>
    match m w with
    | (Ok a, w') => k a w'
    | (Raise e, w') => (Raise e, w')
    end.

Definition lift {A : Type} (r : result A) : M A := fun w => (r, w).

Declare Scope py_scope.
Delimit Scope py_scope with py.
Notation "x <- m ;; k" := (bind m (fun x => k))
  (at level 100, m at next level, right associativity) : py_scope.
Notation "m ;;; k" := (bind m (fun _ => k))
  (at level 100, right associativity) : py_scope.
Local Open Scope py_scope.

(** Reading the global name [artifacts]. *)
Definition read_artifacts : M value :=
  fun w =>
    match artifacts w with
    | Some a => (Ok a, w)
    | None => (Raise (NameError "artifacts"), w)
    end.

(** [global artifacts; artifacts = a]. *)
Definition write_artifacts (a : value) : M unit :=
  fun w => (Ok tt, mkWorld (Some a) (files w) (undecodable w) (clock w) (calls w)).

Definition emit (e : event) : M unit :=
  fun w => (Ok tt, mkWorld (artifacts w) (files w) (undecodable w) (clock w) (calls w ++ [e])).

(** [open(path).read()]: the text of a file that opens and decodes;
    [UnicodeDecodeError] for one that opens and does not decode;
    [OSError] (not found, not permitted, ...) for one that does not
    open. *)
Definition open_read (path : string * string) : M string :=
  fun w =>
    match files w !! path with
    | Some content => (Ok content, w)
    | None =>
        if decide (path ∈ undecodable w) then (Raise UnicodeDecodeError, w)
        else (Raise OSError, w)
    end.

(** [datetime.now().isoformat()]. *)
Definition datetime_now_isoformat : M string :=
  fun w => (Ok (clock w), w).

(** [logger.info(msg)]. *)
Definition logger_info (msg : string) : M unit := emit (EvLogInfo msg).

(** The run identifiers the loading service was called with, in order. *)
Fixpoint loaded_run_ids (evs : list event) : list string :=
  match evs with
  | [] => []
  | EvLoadArtifacts run_id :: evs' => run_id :: loaded_run_ids evs'
  | _ :: evs' => loaded_run_ids evs'
  end.

(** The arguments the prediction service was called with, in order. *)
Fixpoint predict_calls (evs : list event) : list (list string * value) :=
  match evs with
  | [] => []
  | EvPredict ts bundle :: evs' => (ts, bundle) :: predict_calls evs'
  | _ :: evs' => predict_calls evs'
  end.

(** ** Requests and payloads *)

Record URL : Type := { _url : string }.

Record Request : Type := { method : string; url : URL }.

(** Modelled from the spec: [app.schemas] is not part of the sources; a
    predict body is "a list of objects each with a [text] field". *)
Record Text : Type := { text : string }.

Record PredictPayload : Type := { texts : list Text }.

(** ** The collaborators

    [app.config], [tagifai.main] and [tagifai.predict] are imported, not
    defined, by the module: the model directory, the artifact-loading
    service and the prediction service are parameters of the embedding. *)
Record Collaborators : Type := {
  MODEL_DIR : string;
  main_load_artifacts : string -> result value;
  predict_predict : list string -> value -> result (list value)
}.

Section Api.

Context (env : Collaborators).

(** Calls into the collaborators leave a mark in [calls] before they
    return or raise. *)
Definition call_load_artifacts (run_id : string) : M value :=
  emit (EvLoadArtifacts run_id) ;;;
  lift (main_load_artifacts env run_id).

Definition call_predict (texts : list string) (bundle : value) : M (list value) :=
  emit (EvPredict texts bundle) ;;;
  lift (predict_predict env texts bundle).

(** [[
    @app.on_event("startup")
    def load_artifacts():
        global artifacts
        run_id = open(Path(config.MODEL_DIR, "run_id.txt")).read()
        artifacts = main.load_artifacts(run_id=run_id)
        logger.info("Ready for inference!")
    ]] *)
Definition load_artifacts : M unit :=
  run_id <- open_read (Path (MODEL_DIR env) "run_id.txt") ;;
  bundle <- call_load_artifacts run_id ;;
  write_artifacts bundle ;;;
  logger_info "Ready for inference!".

(** The decorator: [construct_response f] is the function [wrap]. *)
Definition construct_response {A : Type}
    (f : Request -> A -> M (gmap string value))
    (request : Request) (args : A) : M (gmap string value) :=
  results <- f request args ;;
  message <- lift (dict_getitem results "message") ;;
  status_code <- lift (dict_getitem results "status-code") ;;
  timestamp <- datetime_now_isoformat ;;
  let response : gmap string value :=
    {[ "message" := message;
       "method" := VStr (method request);
       "status-code" := status_code;
       "timestamp" := VStr timestamp;
       "url" := VStr (_url (url request)) ]} in
  if contains results "data" then
    data <- lift (dict_getitem results "data") ;;
    ret (<["data" := data]> response)
  else
    ret response.

(** Health check. *)
Definition _index (request : Request) (_ : unit) : M (gmap string value) :=
  ret {[ "message" := VStr (HTTPStatus.phrase HTTPStatus.OK);
         "status-code" := HTTPStatus.to_value HTTPStatus.OK;
         "data" := VDict ∅ ]}.

(** Predict tags for a list of texts using the best run. *)
Definition _predict (request : Request) (payload : PredictPayload)
    : M (gmap string value) :=
  let texts := map text (texts payload) in
  bundle <- read_artifacts ;;
  predictions <- call_predict texts bundle ;;
  ret {[ "message" := VStr (HTTPStatus.phrase HTTPStatus.OK);
         "status-code" := HTTPStatus.to_value HTTPStatus.OK;
         "data" := VDict {[ "predictions" := VList predictions ]} ]}.

(** Get parameter values used for a run. *)
Definition _params (request : Request) (_ : unit) : M (gmap string value) :=
  bundle <- read_artifacts ;;
  namespace <- lift (getitem bundle "params") ;;
  params <- lift (vars namespace) ;;
  ret {[ "message" := VStr (HTTPStatus.phrase HTTPStatus.OK);
         "status-code" := HTTPStatus.to_value HTTPStatus.OK;
         "data" := VDict {[ "params" := VDict params ]} ]}.

(** Get a specific parameter's value used for a run. *)
Definition _param (request : Request) (param : string) : M (gmap string value) :=
  bundle <- read_artifacts ;;
  namespace <- lift (getitem bundle "params") ;;
  params <- lift (vars namespace) ;;
  ret {[ "message" := VStr (HTTPStatus.phrase HTTPStatus.OK);
         "status-code" := HTTPStatus.to_value HTTPStatus.OK;
         "data" := VDict {[ "params" :=
                     VDict {[ param := dict_get params param (VStr "") ]} ]} ]}.

(** Get the performance metrics for a run.  [if filter:] is taken by a
    string that is present and not empty. *)
Definition _performance (request : Request) (filter : option string)
    : M (gmap string value) :=
  bundle <- read_artifacts ;;
  performance <- lift (getitem bundle "performance") ;;
  data <- match filter with
          | Some (String c s) =>
              let filter := String c s in
              performance <- lift (resolve performance filter) ;;
              ret (VDict {[ "performance" := VDict {[ filter := performance ]} ]})
          | Some EmptyString | None =>
              ret (VDict {[ "performance" := performance ]})
          end ;;
  ret {[ "message" := VStr (HTTPStatus.phrase HTTPStatus.OK);
         "status-code" := HTTPStatus.to_value HTTPStatus.OK;
         "data" := data ]}.

(** The endpoints as registered with the application: every function
    above behind [@construct_response]. *)
Definition route_index := construct_response _index.
Definition route_predict := construct_response _predict.
Definition route_params := construct_response _params.
Definition route_param := construct_response _param.
Definition route_performance := construct_response _performance.

End Api.

(** ** Vocabulary of the statements *)

Definition is_dict (v : value) : bool :=
  match v with
  | VDict _ => true
  | _ => false
  end.

(** A handler result is "OK / 200" when it has exactly that message and
    status code. *)
Definition ok_200 (results : gmap string value) : Prop :=
  results !! "message" = Some (VStr "OK")
  /\ results !! "status-code" = Some (VInt 200).

(** ** Sample data *)

Definition newline : string := String (ascii_of_nat 10) EmptyString.

(** The identifier file as an editor leaves it: the identifier and a
    line feed. *)
Definition run_id_text : string := "a1b2" ++ newline.

Definition sample_performance : value :=
  VDict {[ "overall" := VDict {[ "precision" := VFloat (S754_finite false 7 (-3));
                                   "num_samples" := VInt 480 ]};
           "class" := VDict ∅ ]}.

Definition sample_params : gmap string value :=
  {[ "num_epochs" := VInt 100; "shuffle" := VBool true ]}.

Definition sample_bundle : value :=
  VDict {[ "params" := VNamespace sample_params;
           "performance" := sample_performance ]}.

Definition sample_prediction (t : string) : value :=
  VDict {[ "input_text" := VStr t ]}.

Definition sample_env : Collaborators :=
  {| MODEL_DIR := "model";
     main_load_artifacts := fun _ => Ok sample_bundle;
     predict_predict := fun texts _ => Ok (map sample_prediction texts) |}.

Definition sample_payload : PredictPayload :=
  {| texts := [ {| text := "transfer learning" |};
                {| text := "graph neural networks" |} ] |}.

Definition sample_answers (t : string) (r : value) : Prop := r = sample_prediction t.

Definition sample_request : Request :=
  {| method := "GET"; url := {| _url := "http://localhost:5000/performance" |} |}.

(** Before start-up: the run identifier is on disk, followed by a line
    feed, and [artifacts] is not bound yet. *)
Definition cold_world : World :=
  {| artifacts := None;
     files := {[ Path "model" "run_id.txt" := run_id_text ]};
     undecodable := ∅;
     clock := "2021-03-01T10:15:30.000250";
     calls := [] |}.

(** After start-up. *)
Definition warm_world : World :=
  {| artifacts := Some sample_bundle;
     files := files cold_world;
     undecodable := ∅;
     clock := clock cold_world;
     calls := [] |}.

(** The two mappings of the specification's examples. *)
Definition abc5 : value :=
  VDict {[ "a" := VDict {[ "b" := VDict {[ "c" := VInt 5 ]} ]} ]}.

Definition ab1 : value :=
  VDict {[ "a" := VDict {[ "b" := VInt 1 ]} ]}.

(** Whether the separator occurs in a string. *)
Fixpoint has_sep (sep : ascii) (s : string) : bool :=
  match s with
  | EmptyString => false
  | String c s' => Ascii.eqb c sep || has_sep sep s'
  end.

(** The keys of the envelope of an endpoint that answers with data. *)
Definition envelope_keys : gset string :=
  {[ "message"; "method"; "status-code"; "timestamp"; "url"; "data" ]}.

(** Collaborators that are down: both services raise. *)
Definition failing_env : Collaborators :=
  {| MODEL_DIR := "model";
     main_load_artifacts := fun _ => Raise (ServiceError "run not found");
     predict_predict := fun _ _ => Raise (ServiceError "model unavailable") |}.

(** A machine on which the identifier file was never written. *)
Definition bare_world : World :=
  {| artifacts := None;
     files := ∅;
     undecodable := ∅;
     clock := clock cold_world;
     calls := [] |}.

(** A machine on which the identifier file holds bytes that are not
    text. *)
Definition garbled_world : World :=
  {| artifacts := None;
     files := ∅;
     undecodable := {[ Path "model" "run_id.txt" ]};
     clock := clock cold_world;
     calls := [] |}.

(** A store bound to a bundle that has no entries. *)
Definition hollow_world : World :=
  {| artifacts := Some (VDict ∅);
     files := files cold_world;
     undecodable := ∅;
     clock := clock cold_world;
     calls := [] |}.

(** A handler that forgets its status code. *)
Definition careless_handler (_ : Request) (_ : unit) : M (gmap string value) :=
  ret {[ "message" := VStr "OK" ]}.

(** ** The nested-key filter *)

Example split_three : split "." "a.b.c" = ["a"; "b"; "c"].
Proof. reflexivity. Qed.

Example split_keeps_empty_pieces : split "." ".a." = [""; "a"; ""].
Proof. reflexivity. Qed.

Example resolve_abc5 : resolve abc5 "a.b.c" = Ok (VInt 5).
Proof. vm_compute. reflexivity. Qed.

Lemma split_nonempty sep s : split sep s <> [].
Proof.
  destruct s as [|c s]; simpl; [discriminate|].
  destruct (Ascii.eqb c sep); [discriminate|].
  destruct (split sep s); discriminate.
Qed.

Lemma resolve_keys_app p keys1 keys2 :
  resolve_keys p (keys1 ++ keys2) =
  rbind (resolve_keys p keys1) (fun v => resolve_keys v keys2).
Proof.
  revert p. induction keys1 as [|k keys1 IH]; intros p; simpl; [reflexivity|].
  destruct (get p k (VDict ∅)) as [v|e]; simpl; [apply IH | reflexivity].
Qed.

(** Once the walk is on the empty mapping it stays there. *)
Lemma resolve_keys_empty keys : resolve_keys (VDict ∅) keys = Ok (VDict ∅).
Proof.
  induction keys as [|k keys IH]; simpl; [reflexivity|].
  unfold dict_get. rewrite lookup_empty. exact IH.
Qed.

(** A value without [get] stops the walk at the next key. *)
Lemma resolve_keys_not_dict v k keys :
  is_dict v = false -> resolve_keys v (k :: keys) = Raise (AttributeError "get").
Proof. destruct v; simpl; intros H; try reflexivity; discriminate. Qed.

(** The loop is the left fold of [get] over the keys. *)
Lemma resolve_keys_fold keys r :
  fold_left (fun acc key => rbind acc (fun v => get v key (VDict ∅))) keys r =
  rbind r (fun p => resolve_keys p keys).
Proof.
  revert r. induction keys as [|k keys IH]; intros r; simpl.
  - destruct r; reflexivity.
  - rewrite IH. destruct r as [p|e]; reflexivity.
Qed.

(** C1 (as the code has it).  Resolving a dot-separated path is the left
    fold of [get(segment, {})] over the segments of the path, started at
    the mapping.  When the first segment is absent from the mapping the
    result is the empty mapping, whatever follows.  A path whose last
    segment is found returns the value stored there, a scalar included.
    A path that reaches a value that is not a mapping and has a segment
    left raises [AttributeError]: the remainder is not answered by the
    empty mapping. *)
Theorem resolve_is_fold_of_get :
  (forall (p : value) (path : string),
      resolve p path =
      fold_left (fun acc key => rbind acc (fun v => get v key (VDict ∅)))
                (split "." path) (Ok p))
  /\ (forall (m : gmap string value) (path x : string) (rest : list string),
         split "." path = x :: rest -> m !! x = None ->
         resolve (VDict m) path = Ok (VDict ∅))
  /\ (forall (p : value) (path : string) (keys : list string) (k : string)
             (d : gmap string value) (v : value),
         split "." path = (keys ++ [k])%list ->
         resolve_keys p keys = Ok (VDict d) -> d !! k = Some v ->
         resolve p path = Ok v)
  /\ (forall (p : value) (path : string) (keys : list string) (k : string)
             (rest : list string) (v : value),
         split "." path = (keys ++ k :: rest)%list ->
         resolve_keys p keys = Ok v -> is_dict v = false ->
         resolve p path = Raise (AttributeError "get")).
Proof.
  repeat split.
  - intros p path. unfold resolve. rewrite resolve_keys_fold. reflexivity.
  - intros m path x rest Hsplit Hx. unfold resolve. rewrite Hsplit. simpl.
    unfold dict_get. rewrite Hx. apply resolve_keys_empty.
  - intros p path keys k d v Hsplit Hkeys Hk. unfold resolve.
    rewrite Hsplit, resolve_keys_app, Hkeys. simpl.
    unfold dict_get. rewrite Hk. reflexivity.
  - intros p path keys k rest v Hsplit Hkeys Hv. unfold resolve.
    rewrite Hsplit, resolve_keys_app, Hkeys. simpl.
    apply (resolve_keys_not_dict v k rest Hv).
Qed.

(** The specification's three examples, obtained from the theorem: the
    full match, the absent first segment, and the descent below a
    scalar. *)
Lemma resolve_is_fold_of_get_witness :
  resolve abc5 "a.b.c" = Ok (VInt 5)
  /\ resolve ab1 "x.y" = Ok (VDict ∅)
  /\ resolve ab1 "a.b.c" = Raise (AttributeError "get").
Proof.
  destruct resolve_is_fold_of_get as (_ & Habsent & Hfull & Hscalar).
  split; [|split].
  - apply (Hfull abc5 "a.b.c" ["a"; "b"] "c" {[ "c" := VInt 5 ]} (VInt 5));
      vm_compute; reflexivity.
  - apply (Habsent {[ "a" := VDict {[ "b" := VInt 1 ]} ]} "x.y" "x" ["y"]);
      vm_compute; reflexivity.
  - apply (Hscalar ab1 "a.b.c" ["a"; "b"] "c" [] (VInt 1));
      vm_compute; reflexivity.
Defined.

(** C1 as the specification words it fails: below the scalar [1] the
    walk raises, it does not return the empty mapping. *)
Lemma resolve_below_scalar_raises :
  resolve ab1 "a.b.c" = Raise (AttributeError "get")
  /\ resolve ab1 "a.b.c" <> Ok (VDict ∅).
Proof.
  assert (H : resolve ab1 "a.b.c" = Raise (AttributeError "get"))
    by (vm_compute; reflexivity).
  split; [exact H | rewrite H; discriminate].
Qed.

(** ** Start-up *)

Ltac unfold_py :=
  unfold construct_response, call_load_artifacts, call_predict, logger_info,
    bind, lift, ret, emit, read_artifacts, write_artifacts, open_read,
    datetime_now_isoformat in *.

Lemma loaded_run_ids_app evs1 evs2 :
  loaded_run_ids (evs1 ++ evs2) = (loaded_run_ids evs1 ++ loaded_run_ids evs2)%list.
Proof.
  induction evs1 as [|[run_id|msg|ts b] evs1 IH]; simpl; [reflexivity| |exact IH|exact IH].
  rewrite IH. reflexivity.
Qed.

Section Startup.

Context (env : Collaborators).

(** What start-up does once the identifier file has been read, in one
    equation per outcome of the loading service. *)
Lemma load_artifacts_run (w : World) (src : string) :
  files w !! Path (MODEL_DIR env) "run_id.txt" = Some src ->
  load_artifacts env w =
  match main_load_artifacts env src with
  | Ok bundle =>
      (Ok tt,
       mkWorld (Some bundle) (files w) (undecodable w) (clock w)
         ((calls w ++ [EvLoadArtifacts src]) ++ [EvLogInfo "Ready for inference!"]))
  | Raise e =>
      (Raise e,
       mkWorld (artifacts w) (files w) (undecodable w) (clock w) (calls w ++ [EvLoadArtifacts src]))
  end.
Proof.
  intros Hfile. unfold load_artifacts. unfold_py. rewrite Hfile. simpl.
  destruct (main_load_artifacts env src); reflexivity.
Qed.

(** C2 (as the code has it).  The text read from the identifier file is
    handed to the artifact-loading service as it is: for every source
    text, the one identifier the service is called with during start-up
    is the source text itself, surrounding whitespace included. *)
Theorem load_artifacts_passes_source_text (w : World) (src : string) :
  files w !! Path (MODEL_DIR env) "run_id.txt" = Some src ->
  loaded_run_ids (calls (snd (load_artifacts env w))) =
  (loaded_run_ids (calls w) ++ [src])%list.
Proof.
  intros Hfile. rewrite (load_artifacts_run w src Hfile).
  destruct (main_load_artifacts env src); simpl;
    repeat rewrite loaded_run_ids_app; simpl.
  - rewrite app_nil_r. reflexivity.
  - reflexivity.
Qed.

(** C9.  When the loading service succeeds on the identifier read at
    start-up, start-up succeeds, and reading [artifacts] afterwards gives
    the very bundle the service returned; its [params] and [performance]
    entries are therefore the service's own. *)
Theorem load_then_read_is_loaded_bundle (w : World) (src : string) (bundle : value) :
  files w !! Path (MODEL_DIR env) "run_id.txt" = Some src ->
  main_load_artifacts env src = Ok bundle ->
  exists w' : World,
    load_artifacts env w = (Ok tt, w')
    /\ artifacts w' = Some bundle
    /\ read_artifacts w' = (Ok bundle, w')
    /\ bind (load_artifacts env) (fun _ => read_artifacts) w = (Ok bundle, w')
    /\ bind read_artifacts (fun b => lift (getitem b "params")) w'
       = (getitem bundle "params", w')
    /\ bind read_artifacts (fun b => lift (getitem b "performance")) w'
       = (getitem bundle "performance", w').
Proof.
  intros Hfile Hload. rewrite (load_artifacts_run w src Hfile), Hload.
  eexists. split; [reflexivity|].
  unfold bind. rewrite (load_artifacts_run w src Hfile), Hload.
  unfold read_artifacts, lift. simpl. repeat split; reflexivity.
Qed.

End Startup.

Lemma load_artifacts_passes_source_text_witness :
  loaded_run_ids (calls (snd (load_artifacts sample_env cold_world))) =
  (loaded_run_ids (calls cold_world) ++ [run_id_text])%list.
Proof.
  apply (load_artifacts_passes_source_text sample_env cold_world run_id_text).
  vm_compute. reflexivity.
Defined.

(** C2 as the specification words it fails: with a line feed after the
    identifier in the file, the service is called with the line feed
    still there, not with the trimmed text. *)
Lemma load_artifacts_does_not_trim :
  loaded_run_ids (calls (snd (load_artifacts sample_env cold_world)))
    = [run_id_text]
  /\ spec_trim run_id_text = "a1b2"
  /\ loaded_run_ids (calls (snd (load_artifacts sample_env cold_world)))
     <> [spec_trim run_id_text].
Proof.
  assert (H : loaded_run_ids (calls (snd (load_artifacts sample_env cold_world)))
              = [run_id_text]) by (vm_compute; reflexivity).
  split; [exact H|]. split; [vm_compute; reflexivity|].
  rewrite H. vm_compute. discriminate.
Qed.

Lemma load_then_read_is_loaded_bundle_witness :
  exists w' : World,
    load_artifacts sample_env cold_world = (Ok tt, w')
    /\ artifacts w' = Some sample_bundle
    /\ read_artifacts w' = (Ok sample_bundle, w')
    /\ bind (load_artifacts sample_env) (fun _ => read_artifacts) cold_world
       = (Ok sample_bundle, w')
    /\ bind read_artifacts (fun b => lift (getitem b "params")) w'
       = (getitem sample_bundle "params", w')
    /\ bind read_artifacts (fun b => lift (getitem b "performance")) w'
       = (getitem sample_bundle "performance", w').
Proof.
  apply (load_then_read_is_loaded_bundle sample_env cold_world run_id_text).
  - vm_compute. reflexivity.
  - reflexivity.
Defined.

(** ** The response envelope *)

(** The five entries every envelope starts from. *)
Lemma envelope_base_dom (message status_code : value) (m ts u : string) :
  dom ({[ "message" := message; "method" := VStr m; "status-code" := status_code;
          "timestamp" := VStr ts; "url" := VStr u ]} : gmap string value)
  = ({[ "message"; "method"; "status-code"; "timestamp"; "url" ]} : gset string).
Proof. repeat rewrite dom_insert_L. rewrite dom_singleton_L. set_solver. Qed.

Lemma envelope_base_no_data (message status_code : value) (m ts u : string) :
  ({[ "message" := message; "method" := VStr m; "status-code" := status_code;
      "timestamp" := VStr ts; "url" := VStr u ]} : gmap string value) !! "data" = None.
Proof.
  repeat (rewrite lookup_insert_ne; [|discriminate]).
  rewrite lookup_singleton_ne; [reflexivity|discriminate].
Qed.

Section Envelope.

Context {A : Type} (f : Request -> A -> M (gmap string value)).

(** The wrapper, run on a handler result that carries a message and a
    status code. *)
Lemma construct_response_run (request : Request) (args : A) (w w' : World)
    (results : gmap string value) (message status_code : value) :
  f request args w = (Ok results, w') ->
  results !! "message" = Some message ->
  results !! "status-code" = Some status_code ->
  construct_response f request args w =
  (Ok (let response : gmap string value :=
         {[ "message" := message; "method" := VStr (method request);
            "status-code" := status_code; "timestamp" := VStr (clock w');
            "url" := VStr (_url (url request)) ]} in
       match results !! "data" with
       | Some data => <["data" := data]> response
       | None => response
       end), w').
Proof.
  intros Hf Hm Hs. unfold construct_response, bind, lift, datetime_now_isoformat,
    dict_getitem, contains, ret.
  rewrite Hf, Hm, Hs. destruct (results !! "data"); reflexivity.
Qed.

(** A wrapper that returns has wrapped a handler that returned, and the
    message, status code and data of the envelope are the handler's. *)
Lemma construct_response_inv (request : Request) (args : A) (w w' : World)
    (response : gmap string value) :
  construct_response f request args w = (Ok response, w') ->
  exists results : gmap string value,
    f request args w = (Ok results, w')
    /\ is_Some (results !! "message")
    /\ response !! "message" = results !! "message"
    /\ response !! "status-code" = results !! "status-code"
    /\ response !! "data" = results !! "data".
Proof.
  intros H. destruct (f request args w) as [[results|e] w1] eqn:Hf.
  - destruct (results !! "message") as [m|] eqn:Hm.
    + destruct (results !! "status-code") as [s|] eqn:Hs.
      * rewrite (construct_response_run request args w w1 results m s Hf Hm Hs) in H.
        inversion H; subst. exists results. rewrite Hm, Hs.
        split; [reflexivity|]. split; [eauto|].
        destruct (results !! "data") as [d|] eqn:Hd.
        -- rewrite lookup_insert_eq.
           repeat (rewrite lookup_insert_ne; [|discriminate]).
           rewrite !lookup_insert_eq. repeat split; reflexivity.
        -- rewrite envelope_base_no_data.
           repeat (rewrite lookup_insert_ne; [|discriminate]).
           rewrite !lookup_insert_eq. repeat split; reflexivity.
      * unfold construct_response, bind, lift, dict_getitem in H.
        rewrite Hf, Hm, Hs in H. discriminate.
    + unfold construct_response, bind, lift, dict_getitem in H.
      rewrite Hf, Hm in H. discriminate.
  - unfold construct_response, bind in H. rewrite Hf in H. discriminate.
Qed.

(** C6.  Whatever the handler and the request, when the handler returns
    a result with a message and a status code, the wrapper returns an
    envelope whose keys are exactly message, method, status-code,
    timestamp and url, plus data exactly when the result has a data
    entry; the data entry is the handler's, unchanged; message and
    status-code are the handler's; method and url are the request's. *)
Theorem construct_response_envelope (request : Request) (args : A) (w w' : World)
    (results : gmap string value) (message status_code : value) :
  f request args w = (Ok results, w') ->
  results !! "message" = Some message ->
  results !! "status-code" = Some status_code ->
  exists response : gmap string value,
    construct_response f request args w = (Ok response, w')
    /\ dom response =
       {[ "message"; "method"; "status-code"; "timestamp"; "url" ]}
       ∪ (if contains results "data" then {[ "data" ]} else ∅)
    /\ response !! "data" = results !! "data"
    /\ response !! "message" = Some message
    /\ response !! "status-code" = Some status_code
    /\ response !! "method" = Some (VStr (method request))
    /\ response !! "url" = Some (VStr (_url (url request)))
    /\ response !! "timestamp" = Some (VStr (clock w')).
Proof.
  intros Hf Hm Hs. eexists. split.
  { apply (construct_response_run request args w w' results message status_code Hf Hm Hs). }
  cbv zeta. unfold contains. destruct (results !! "data") as [d|] eqn:Hd.
  - split.
    { rewrite dom_insert_L, envelope_base_dom. set_solver. }
    split; [apply lookup_insert_eq|].
    rewrite !(lookup_insert_ne _ "data"); try discriminate.
    repeat split; simplify_map_eq; reflexivity.
  - split.
    { rewrite envelope_base_dom. set_solver. }
    split; [apply envelope_base_no_data|].
    repeat split; simplify_map_eq; reflexivity.
Qed.

End Envelope.

(** ** The endpoints *)

(** The result record of a successful handler around its data. *)
Lemma ok_result_message (data : value) :
  ({[ "message" := VStr (HTTPStatus.phrase HTTPStatus.OK);
      "status-code" := HTTPStatus.to_value HTTPStatus.OK;
      "data" := data ]} : gmap string value) !! "message" = Some (VStr "OK").
Proof. apply lookup_insert_eq. Qed.

Lemma ok_result_status (data : value) :
  ({[ "message" := VStr (HTTPStatus.phrase HTTPStatus.OK);
      "status-code" := HTTPStatus.to_value HTTPStatus.OK;
      "data" := data ]} : gmap string value) !! "status-code" = Some (VInt 200).
Proof. rewrite lookup_insert_ne; [apply lookup_insert_eq | discriminate]. Qed.

Lemma ok_result_data (data : value) :
  ({[ "message" := VStr (HTTPStatus.phrase HTTPStatus.OK);
      "status-code" := HTTPStatus.to_value HTTPStatus.OK;
      "data" := data ]} : gmap string value) !! "data" = Some data.
Proof.
  do 2 (rewrite lookup_insert_ne; [|discriminate]). apply lookup_singleton_eq.
Qed.

(** Case analysis along a handler that is known to have returned. *)
Ltac invert_run H :=
  unfold_py;
  repeat match type of H with
         | context [match ?x with _ => _ end] => destruct x eqn:?; simpl in H
         end;
  try discriminate H; inversion H; subst; clear H.

Section Endpoints.

Context (env : Collaborators).

(** A wrapped handler that returned [results] with the standard message
    and status code: the envelope carries the same data. *)
Lemma route_data {A : Type} (f : Request -> A -> M (gmap string value))
    (request : Request) (args : A) (w w' : World) (data : value) :
  f request args w =
    (Ok {[ "message" := VStr (HTTPStatus.phrase HTTPStatus.OK);
           "status-code" := HTTPStatus.to_value HTTPStatus.OK;
           "data" := data ]}, w') ->
  exists response : gmap string value,
    construct_response f request args w = (Ok response, w')
    /\ response !! "data" = Some data.
Proof.
  intros Hf. eexists. split.
  { apply (construct_response_run f request args w w' _ _ _ Hf
             (ok_result_message data) (ok_result_status data)). }
  cbv zeta. rewrite ok_result_data. apply lookup_insert_eq.
Qed.

(** C3 (as the code has it).  With a loaded store and a non-empty
    filter [f], the performance handler does what resolving [f] against
    the stored performance mapping does.  When that gives a value [v],
    the handler returns the data [{"performance": {f: v}}]: the inner
    mapping has the one key [f], the filter string as given, and the
    envelope carries that data.  When that raises, the handler raises
    the same exception, bare and behind the wrapper, and returns no
    data. *)
Theorem performance_keyed_by_filter (request : Request) (f : string) (w : World)
    (bundle p : value) :
  f <> "" ->
  artifacts w = Some bundle ->
  getitem bundle "performance" = Ok p ->
  (forall v : value,
      resolve p f = Ok v ->
      _performance request (Some f) w =
        (Ok {[ "message" := VStr "OK"; "status-code" := VInt 200;
               "data" := VDict {[ "performance" := VDict {[ f := v ]} ]} ]}, w)
      /\ (exists response : gmap string value,
            route_performance request (Some f) w = (Ok response, w)
            /\ response !! "data" =
               Some (VDict {[ "performance" := VDict {[ f := v ]} ]}))
      /\ dom ({[ f := v ]} : gmap string value) = {[ f ]})
  /\ (forall e : exn,
        resolve p f = Raise e ->
        _performance request (Some f) w = (Raise e, w)
        /\ route_performance request (Some f) w = (Raise e, w)).
Proof.
  intros Hf Hart Hperf. split.
  - intros v Hres.
    assert (Hrun : _performance request (Some f) w =
              (Ok {[ "message" := VStr "OK"; "status-code" := VInt 200;
                     "data" := VDict {[ "performance" := VDict {[ f := v ]} ]} ]}, w)).
    { destruct f as [|c s]; [congruence|].
      unfold _performance. unfold_py. rewrite Hart, Hperf, Hres. reflexivity. }
    split; [exact Hrun|]. split; [|apply dom_singleton_L].
    apply (route_data _performance), Hrun.
  - intros e Hres.
    assert (Hrun : _performance request (Some f) w = (Raise e, w)).
    { destruct f as [|c s]; [congruence|].
      unfold _performance. unfold_py. rewrite Hart, Hperf, Hres. reflexivity. }
    split; [exact Hrun|].
    unfold route_performance, construct_response, bind. rewrite Hrun. reflexivity.
Qed.

(** C4.  With no filter, or with the empty string as filter, the
    performance handler returns the data [{"performance": p}] where [p]
    is the stored performance mapping itself. *)
Theorem performance_unfiltered (request : Request) (filter : option string)
    (w : World) (bundle p : value) :
  filter = None \/ filter = Some "" ->
  artifacts w = Some bundle ->
  getitem bundle "performance" = Ok p ->
  _performance request filter w =
    (Ok {[ "message" := VStr "OK"; "status-code" := VInt 200;
           "data" := VDict {[ "performance" := p ]} ]}, w)
  /\ (exists response : gmap string value,
        route_performance request filter w = (Ok response, w)
        /\ response !! "data" = Some (VDict {[ "performance" := p ]})).
Proof.
  intros Hfilter Hart Hperf.
  assert (Hrun : _performance request filter w =
            (Ok {[ "message" := VStr "OK"; "status-code" := VInt 200;
                   "data" := VDict {[ "performance" := p ]} ]}, w)).
  { unfold _performance. unfold_py. rewrite Hart, Hperf.
    destruct Hfilter as [-> | ->]; reflexivity. }
  split; [exact Hrun|]. apply (route_data _performance), Hrun.
Qed.

(** C5.  For every parameter name, the empty one and the absent ones
    included, the single-parameter handler returns (it does not raise)
    the data [{"params": {name: v}}], where [v] is the stored value of
    the name and the empty string when the name is not stored. *)
Theorem param_lookup_defaults_to_empty (request : Request) (param : string)
    (w : World) (bundle : value) (params : gmap string value) :
  artifacts w = Some bundle ->
  getitem bundle "params" = Ok (VNamespace params) ->
  let v := match params !! param with Some x => x | None => VStr "" end in
  _param request param w =
    (Ok {[ "message" := VStr "OK"; "status-code" := VInt 200;
           "data" := VDict {[ "params" := VDict {[ param := v ]} ]} ]}, w)
  /\ (exists response : gmap string value,
        route_param request param w = (Ok response, w)
        /\ response !! "data" = Some (VDict {[ "params" := VDict {[ param := v ]} ]})).
Proof.
  intros Hart Hparams v.
  assert (Hrun : _param request param w =
            (Ok {[ "message" := VStr "OK"; "status-code" := VInt 200;
                   "data" := VDict {[ "params" := VDict {[ param := v ]} ]} ]}, w)).
  { unfold _param. unfold_py. rewrite Hart, Hparams. reflexivity. }
  split; [exact Hrun|]. apply (route_data _param), Hrun.
Qed.

Lemma predict_calls_app evs1 evs2 :
  predict_calls (evs1 ++ evs2) = (predict_calls evs1 ++ predict_calls evs2)%list.
Proof.
  induction evs1 as [|[run_id|msg|ts b] evs1 IH]; simpl; [reflexivity|exact IH|exact IH|].
  rewrite IH. reflexivity.
Qed.

(** C7.  Suppose the prediction service answers every call with one
    result per input text, in the order of the inputs ([answers t r]
    reads "r is the result for t").  Then for every non-empty list of
    input texts the predict handler takes the texts out of the payload in
    order, calls the service once, with them and with the stored bundle,
    and returns the data [{"predictions": rs}] where [rs] is as long as
    the input list and its i-th entry answers the i-th text. *)
Theorem predict_results_aligned (answers : string -> value -> Prop)
    (request : Request) (payload : PredictPayload) (w : World) (bundle : value) :
  (forall (ts : list string) (b : value),
      exists rs : list value, predict_predict env ts b = Ok rs /\ Forall2 answers ts rs) ->
  texts payload <> [] ->
  artifacts w = Some bundle ->
  exists (rs : list value) (w' : World),
    _predict env request payload w =
      (Ok {[ "message" := VStr "OK"; "status-code" := VInt 200;
             "data" := VDict {[ "predictions" := VList rs ]} ]}, w')
    /\ predict_calls (calls w') =
       (predict_calls (calls w) ++ [(map text (texts payload), bundle)])%list
    /\ artifacts w' = Some bundle
    /\ length rs = length (texts payload)
    /\ (forall (i : nat) (t : Text),
           texts payload !! i = Some t ->
           exists r : value, rs !! i = Some r /\ answers (text t) r)
    /\ (exists response : gmap string value,
           route_predict env request payload w = (Ok response, w')
           /\ response !! "data" = Some (VDict {[ "predictions" := VList rs ]})).
Proof.
  intros Hservice Hne Hart.
  destruct (Hservice (map text (texts payload)) bundle) as (rs & Hcall & Haligned).
  assert (Hrun : _predict env request payload w =
            (Ok {[ "message" := VStr "OK"; "status-code" := VInt 200;
                   "data" := VDict {[ "predictions" := VList rs ]} ]},
             mkWorld (Some bundle) (files w) (undecodable w) (clock w)
               (calls w ++ [EvPredict (map text (texts payload)) bundle]))).
  { unfold _predict. unfold_py. rewrite Hart. simpl. rewrite Hcall, Hart. reflexivity. }
  exists rs. eexists. split; [exact Hrun|]. simpl.
  split; [rewrite predict_calls_app; reflexivity|].
  split; [reflexivity|].
  split.
  { rewrite <- (Forall2_length _ _ _ Haligned). apply length_map. }
  split.
  { intros i t Hi.
    assert (Hti : map text (texts payload) !! i = Some (text t)).
    { change (map text (texts payload)) with (text <$> texts payload).
      rewrite list_lookup_fmap, Hi. reflexivity. }
    destruct (Forall2_lookup_l _ _ _ _ _ Haligned Hti) as (r & Hr & Hans).
    exists r. split; assumption. }
  apply (route_data (_predict env)), Hrun.
Qed.

(** C8.  While [artifacts] is unbound, each of the four handlers that
    read it (predict, list params, single param, performance) raises
    [NameError], bare or behind the wrapper; no response is built, and
    the prediction service is not called. *)
Theorem handlers_raise_before_startup (request : Request) (payload : PredictPayload)
    (param : string) (filter : option string) (w : World) :
  artifacts w = None ->
  _predict env request payload w = (Raise (NameError "artifacts"), w)
  /\ _params request tt w = (Raise (NameError "artifacts"), w)
  /\ _param request param w = (Raise (NameError "artifacts"), w)
  /\ _performance request filter w = (Raise (NameError "artifacts"), w)
  /\ route_predict env request payload w = (Raise (NameError "artifacts"), w)
  /\ route_params request tt w = (Raise (NameError "artifacts"), w)
  /\ route_param request param w = (Raise (NameError "artifacts"), w)
  /\ route_performance request filter w = (Raise (NameError "artifacts"), w).
Proof.
  intros Hart.
  unfold route_predict, route_params, route_param, route_performance,
    _predict, _params, _param, _performance.
  unfold_py. rewrite Hart. repeat split; reflexivity.
Qed.

Lemma ok_result_ok_200 (data : value) :
  ok_200 {[ "message" := VStr (HTTPStatus.phrase HTTPStatus.OK);
            "status-code" := HTTPStatus.to_value HTTPStatus.OK;
            "data" := data ]}.
Proof. split; [apply ok_result_message | apply ok_result_status]. Qed.

Lemma _index_ok_200 request w results w' :
  _index request tt w = (Ok results, w') -> ok_200 results.
Proof. unfold _index. intros H. invert_run H. apply ok_result_ok_200. Qed.

Lemma _predict_ok_200 request payload w results w' :
  _predict env request payload w = (Ok results, w') -> ok_200 results.
Proof. unfold _predict. intros H. invert_run H. apply ok_result_ok_200. Qed.

Lemma _params_ok_200 request w results w' :
  _params request tt w = (Ok results, w') -> ok_200 results.
Proof. unfold _params. intros H. invert_run H. apply ok_result_ok_200. Qed.

Lemma _param_ok_200 request param w results w' :
  _param request param w = (Ok results, w') -> ok_200 results.
Proof. unfold _param. intros H. invert_run H. apply ok_result_ok_200. Qed.

Lemma _performance_ok_200 request filter w results w' :
  _performance request filter w = (Ok results, w') -> ok_200 results.
Proof.
  unfold _performance. intros H.
  destruct filter as [[|c s]|]; invert_run H; apply ok_result_ok_200.
Qed.

(** The wrapper hands the handler's message and status code on. *)
Lemma route_ok_200 {A : Type} (f : Request -> A -> M (gmap string value))
    (request : Request) (args : A) (w w' : World) (response : gmap string value) :
  (forall results, f request args w = (Ok results, w') -> ok_200 results) ->
  construct_response f request args w = (Ok response, w') ->
  ok_200 response.
Proof.
  intros Hf Hrun.
  destruct (construct_response_inv f request args w w' response Hrun)
    as (results & Hres & _ & Hm & Hs & _).
  destruct (Hf results Hres) as [Hm' Hs'].
  split; congruence.
Qed.

(** C10.  Each handler (health check, predict, list params, single
    param, performance), whenever it returns, returns the message ["OK"]
    and the status code [200]; so does the envelope built from it. *)
Theorem every_handler_answers_ok_200 (request : Request) (payload : PredictPayload)
    (param : string) (filter : option string) (w w' : World)
    (results : gmap string value) :
  (_index request tt w = (Ok results, w') -> ok_200 results)
  /\ (_predict env request payload w = (Ok results, w') -> ok_200 results)
  /\ (_params request tt w = (Ok results, w') -> ok_200 results)
  /\ (_param request param w = (Ok results, w') -> ok_200 results)
  /\ (_performance request filter w = (Ok results, w') -> ok_200 results)
  /\ (route_index request tt w = (Ok results, w') -> ok_200 results)
  /\ (route_predict env request payload w = (Ok results, w') -> ok_200 results)
  /\ (route_params request tt w = (Ok results, w') -> ok_200 results)
  /\ (route_param request param w = (Ok results, w') -> ok_200 results)
  /\ (route_performance request filter w = (Ok results, w') -> ok_200 results).
Proof.
  repeat apply conj.
  - apply _index_ok_200.
  - apply _predict_ok_200.
  - apply _params_ok_200.
  - apply _param_ok_200.
  - apply _performance_ok_200.
  - apply route_ok_200. intros r. apply _index_ok_200.
  - apply route_ok_200. intros r. apply _predict_ok_200.
  - apply route_ok_200. intros r. apply _params_ok_200.
  - apply route_ok_200. intros r. apply _param_ok_200.
  - apply route_ok_200. intros r. apply _performance_ok_200.
Qed.

End Endpoints.

(** ** The statements on the sample run *)

Lemma sample_service_aligned (ts : list string) (b : value) :
  exists rs : list value,
    predict_predict sample_env ts b = Ok rs /\ Forall2 sample_answers ts rs.
Proof.
  exists (map sample_prediction ts). split; [reflexivity|].
  induction ts as [|t ts IH]; constructor; [reflexivity | exact IH].
Qed.

Lemma performance_keyed_by_filter_witness :
  (forall v : value,
      resolve sample_performance "overall.precision" = Ok v ->
      _performance sample_request (Some "overall.precision") warm_world =
        (Ok {[ "message" := VStr "OK"; "status-code" := VInt 200;
               "data" := VDict {[ "performance" :=
                           VDict {[ "overall.precision" := v ]} ]} ]}, warm_world)
      /\ (exists response : gmap string value,
            route_performance sample_request (Some "overall.precision") warm_world
              = (Ok response, warm_world)
            /\ response !! "data" =
               Some (VDict {[ "performance" :=
                       VDict {[ "overall.precision" := v ]} ]}))
      /\ dom ({[ "overall.precision" := v ]} : gmap string value)
         = {[ "overall.precision" ]})
  /\ (forall e : exn,
        resolve sample_performance "overall.precision" = Raise e ->
        _performance sample_request (Some "overall.precision") warm_world
          = (Raise e, warm_world)
        /\ route_performance sample_request (Some "overall.precision") warm_world
           = (Raise e, warm_world)).
Proof.
  apply (performance_keyed_by_filter sample_request "overall.precision" warm_world
           sample_bundle sample_performance).
  - discriminate.
  - reflexivity.
  - vm_compute. reflexivity.
Defined.

(** The filter of the witness does resolve, to the stored precision. *)
Example sample_precision_resolves :
  resolve sample_performance "overall.precision"
  = Ok (VFloat (S754_finite false 7 (-3)))
  /\ fst (_performance sample_request (Some "overall.precision") warm_world)
     = Ok {[ "message" := VStr "OK"; "status-code" := VInt 200;
             "data" := VDict {[ "performance" :=
                         VDict {[ "overall.precision" :=
                                    VFloat (S754_finite false 7 (-3)) ]} ]} ]}.
Proof. split; vm_compute; reflexivity. Qed.

(** C3 as the specification words it fails: the non-empty filter
    [overall.precision.mean] goes below the number stored as the
    precision, so with the store loaded the handler raises
    [AttributeError] and returns no data at all, keyed or not. *)
Lemma performance_filter_below_number_returns_nothing :
  "overall.precision.mean" <> ""
  /\ artifacts warm_world = Some sample_bundle
  /\ _performance sample_request (Some "overall.precision.mean") warm_world
     = (Raise (AttributeError "get"), warm_world)
  /\ route_performance sample_request (Some "overall.precision.mean") warm_world
     = (Raise (AttributeError "get"), warm_world)
  /\ ~ (exists (results : gmap string value) (w' : World),
          _performance sample_request (Some "overall.precision.mean") warm_world
          = (Ok results, w')).
Proof.
  assert (H : _performance sample_request (Some "overall.precision.mean") warm_world
              = (Raise (AttributeError "get"), warm_world)) by (vm_compute; reflexivity).
  split; [discriminate|]. split; [reflexivity|]. split; [exact H|].
  split; [vm_compute; reflexivity|].
  intros (results & w' & Hok). rewrite H in Hok. discriminate.
Qed.

Lemma performance_unfiltered_witness :
  _performance sample_request (Some "") warm_world =
    (Ok {[ "message" := VStr "OK"; "status-code" := VInt 200;
           "data" := VDict {[ "performance" := sample_performance ]} ]}, warm_world)
  /\ (exists response : gmap string value,
        route_performance sample_request (Some "") warm_world = (Ok response, warm_world)
        /\ response !! "data" = Some (VDict {[ "performance" := sample_performance ]})).
Proof.
  apply (performance_unfiltered sample_request (Some "") warm_world sample_bundle).
  - right. reflexivity.
  - reflexivity.
  - vm_compute. reflexivity.
Defined.

Lemma param_lookup_defaults_to_empty_witness :
  _param sample_request "dropout" warm_world =
    (Ok {[ "message" := VStr "OK"; "status-code" := VInt 200;
           "data" := VDict {[ "params" := VDict {[ "dropout" := VStr "" ]} ]} ]},
     warm_world)
  /\ (exists response : gmap string value,
        route_param sample_request "dropout" warm_world = (Ok response, warm_world)
        /\ response !! "data" =
           Some (VDict {[ "params" := VDict {[ "dropout" := VStr "" ]} ]})).
Proof.
  apply (param_lookup_defaults_to_empty sample_request "dropout" warm_world
           sample_bundle sample_params).
  - reflexivity.
  - vm_compute. reflexivity.
Defined.

Lemma construct_response_envelope_witness :
  exists response : gmap string value,
    construct_response _index sample_request tt cold_world = (Ok response, cold_world)
    /\ dom response =
       {[ "message"; "method"; "status-code"; "timestamp"; "url" ]} ∪ {[ "data" ]}
    /\ response !! "data" = Some (VDict ∅)
    /\ response !! "message" = Some (VStr "OK")
    /\ response !! "status-code" = Some (VInt 200)
    /\ response !! "method" = Some (VStr "GET")
    /\ response !! "url" = Some (VStr "http://localhost:5000/performance")
    /\ response !! "timestamp" = Some (VStr "2021-03-01T10:15:30.000250").
Proof.
  destruct (construct_response_envelope _index sample_request tt cold_world cold_world
              {[ "message" := VStr "OK"; "status-code" := VInt 200; "data" := VDict ∅ ]}
              (VStr "OK") (VInt 200))
    as (response & Hrun & Hdom & Hdata & Hrest).
  - reflexivity.
  - vm_compute. reflexivity.
  - vm_compute. reflexivity.
  - exists response. split; [exact Hrun|]. split; [exact Hdom|].
    split; [exact Hdata | exact Hrest].
Defined.

Lemma predict_results_aligned_witness :
  exists (rs : list value) (w' : World),
    _predict sample_env sample_request sample_payload warm_world =
      (Ok {[ "message" := VStr "OK"; "status-code" := VInt 200;
             "data" := VDict {[ "predictions" := VList rs ]} ]}, w')
    /\ predict_calls (calls w') =
       (predict_calls (calls warm_world)
          ++ [(map text (texts sample_payload), sample_bundle)])%list
    /\ artifacts w' = Some sample_bundle
    /\ length rs = length (texts sample_payload)
    /\ (forall (i : nat) (t : Text),
           texts sample_payload !! i = Some t ->
           exists r : value, rs !! i = Some r /\ sample_answers (text t) r)
    /\ (exists response : gmap string value,
           route_predict sample_env sample_request sample_payload warm_world
             = (Ok response, w')
           /\ response !! "data" = Some (VDict {[ "predictions" := VList rs ]})).
Proof.
  apply (predict_results_aligned sample_env sample_answers sample_request
           sample_payload warm_world sample_bundle).
  - exact sample_service_aligned.
  - discriminate.
  - reflexivity.
Defined.

Lemma handlers_raise_before_startup_witness :
  _predict sample_env sample_request sample_payload cold_world
    = (Raise (NameError "artifacts"), cold_world)
  /\ _params sample_request tt cold_world = (Raise (NameError "artifacts"), cold_world)
  /\ _param sample_request "dropout" cold_world
     = (Raise (NameError "artifacts"), cold_world)
  /\ _performance sample_request None cold_world
     = (Raise (NameError "artifacts"), cold_world)
  /\ route_predict sample_env sample_request sample_payload cold_world
     = (Raise (NameError "artifacts"), cold_world)
  /\ route_params sample_request tt cold_world
     = (Raise (NameError "artifacts"), cold_world)
  /\ route_param sample_request "dropout" cold_world
     = (Raise (NameError "artifacts"), cold_world)
  /\ route_performance sample_request None cold_world
     = (Raise (NameError "artifacts"), cold_world).
Proof.
  apply (handlers_raise_before_startup sample_env sample_request sample_payload
           "dropout" None cold_world).
  reflexivity.
Defined.

Lemma every_handler_answers_ok_200_witness :
  ok_200 {[ "message" := VStr "OK"; "status-code" := VInt 200; "data" := VDict ∅ ]}
  /\ ok_200 {[ "message" := VStr "OK"; "status-code" := VInt 200;
               "data" := VDict {[ "params" := VDict sample_params ]} ]}
  /\ ok_200 {[ "message" := VStr "OK"; "status-code" := VInt 200;
               "data" := VDict {[ "performance" := sample_performance ]} ]}.
Proof.
  split; [|split].
  - destruct (every_handler_answers_ok_200 sample_env sample_request sample_payload
                "dropout" None cold_world cold_world
                {[ "message" := VStr "OK"; "status-code" := VInt 200;
                   "data" := VDict ∅ ]}) as (Hindex & _).
    apply Hindex. vm_compute. reflexivity.
  - destruct (every_handler_answers_ok_200 sample_env sample_request sample_payload
                "dropout" None warm_world warm_world
                {[ "message" := VStr "OK"; "status-code" := VInt 200;
                   "data" := VDict {[ "params" := VDict sample_params ]} ]})
      as (_ & _ & Hparams & _).
    apply Hparams. vm_compute. reflexivity.
  - destruct (every_handler_answers_ok_200 sample_env sample_request sample_payload
                "dropout" None warm_world warm_world
                {[ "message" := VStr "OK"; "status-code" := VInt 200;
                   "data" := VDict {[ "performance" := sample_performance ]} ]})
      as (_ & _ & _ & _ & Hperformance & _).
    apply Hperformance. vm_compute. reflexivity.
Defined.

(** ** More on the nested-key filter *)

Lemma split_cons_inv sep s : exists w ws, split sep s = w :: ws.
Proof.
  destruct (split sep s) as [|w ws] eqn:H; [|eauto].
  exfalso. exact (split_nonempty sep s H).
Qed.

(** Splitting a text that has a separator in the middle: the pieces of
    the left part, then the pieces of the right part. *)
Lemma split_app_sep sep a b :
  split sep (a ++ String sep b) = (split sep a ++ split sep b)%list.
Proof.
  induction a as [|c a IH]; simpl.
  - rewrite Ascii.eqb_refl. reflexivity.
  - destruct (Ascii.eqb c sep); [rewrite IH; reflexivity|].
    rewrite IH. destruct (split_cons_inv sep a) as (w & ws & ->). reflexivity.
Qed.

Lemma split_no_sep sep s : has_sep sep s = false -> split sep s = [s].
Proof.
  induction s as [|c s IH]; simpl; [reflexivity|].
  destruct (Ascii.eqb c sep); simpl; [discriminate|].
  intros H. rewrite (IH H). reflexivity.
Qed.

(** The walk over a list of keys can only stop on a value that is not a
    mapping, with a key left, and then with [AttributeError]. *)
Lemma resolve_keys_raise_inv p keys e :
  resolve_keys p keys = Raise e ->
  e = AttributeError "get"
  /\ exists (done : list string) (k : string) (rest : list string) (v : value),
       keys = (done ++ k :: rest)%list
       /\ resolve_keys p done = Ok v
       /\ is_dict v = false.
Proof.
  revert p. induction keys as [|k keys IH]; intros p H; simpl in H; [discriminate|].
  destruct p; simpl in H;
    try (inversion H; subst; split; [reflexivity|];
         eexists [], k, keys, _; repeat split; reflexivity).
  destruct (IH _ H) as (He & done & k' & rest & v & Hkeys & Hdone & Hv).
  split; [exact He|]. exists (k :: done), k', rest, v.
  split; [rewrite Hkeys; reflexivity|]. split; [|exact Hv].
  simpl. exact Hdone.
Qed.

(** X12.  The only exception the filter raises is [AttributeError], and
    it raises it only when the walk has reached a value that is not a
    mapping while a segment is still left; an unknown key is never an
    error. *)
Theorem resolve_raises_only_below_non_mapping (p : value) (path : string) (e : exn) :
  resolve p path = Raise e ->
  e = AttributeError "get"
  /\ exists (done : list string) (k : string) (rest : list string) (v : value),
       split "." path = (done ++ k :: rest)%list
       /\ resolve_keys p done = Ok v
       /\ is_dict v = false.
Proof. unfold resolve. apply resolve_keys_raise_inv. Qed.

Lemma resolve_raises_only_below_non_mapping_witness :
  AttributeError "get" = AttributeError "get"
  /\ exists (done : list string) (k : string) (rest : list string) (v : value),
       split "." "overall.precision.mean" = (done ++ k :: rest)%list
       /\ resolve_keys sample_performance done = Ok v
       /\ is_dict v = false.
Proof.
  apply (resolve_raises_only_below_non_mapping sample_performance
           "overall.precision.mean" (AttributeError "get")).
  vm_compute. reflexivity.
Defined.

(** X13.  Paths compose: resolving [a.b] is resolving [a] and then
    resolving [b] in what that gave, for any two paths [a] and [b]; an
    exception raised on the way through [a] is the exception of the
    whole. *)
Theorem resolve_composes (p : value) (a b : string) :
  resolve p (a ++ "." ++ b) = rbind (resolve p a) (fun v => resolve v b).
Proof.
  unfold resolve. change (a ++ "." ++ b) with (a ++ String "." b).
  rewrite split_app_sep. apply resolve_keys_app.
Qed.

(** X14.  A filter without a dot is one top-level lookup: on a mapping
    it returns the entry stored under the whole filter string, and the
    empty mapping when there is none; it never raises. *)
Theorem dot_free_filter_is_one_lookup (m : gmap string value) (path : string) :
  has_sep "." path = false ->
  resolve (VDict m) path =
  Ok (match m !! path with Some v => v | None => VDict ∅ end).
Proof.
  intros H. unfold resolve. rewrite (split_no_sep "." path H). reflexivity.
Qed.

Lemma dot_free_filter_is_one_lookup_witness :
  resolve (VDict {[ "overall" := VInt 3 ]}) "class" =
  Ok (match ({[ "overall" := VInt 3 ]} : gmap string value) !! "class" with
      | Some v => v
      | None => VDict ∅
      end).
Proof.
  apply (dot_free_filter_is_one_lookup {[ "overall" := VInt 3 ]} "class").
  reflexivity.
Defined.

(** X15.  A key that is absent at any depth answers the whole path with
    the empty mapping: when the walk has reached a mapping that lacks the
    next segment, the result is [{}] however many segments follow. *)
Theorem resolve_absent_at_any_depth (p : value) (path : string)
    (done : list string) (k : string) (rest : list string) (d : gmap string value) :
  split "." path = (done ++ k :: rest)%list ->
  resolve_keys p done = Ok (VDict d) ->
  d !! k = None ->
  resolve p path = Ok (VDict ∅).
Proof.
  intros Hsplit Hdone Hk. unfold resolve.
  rewrite Hsplit, resolve_keys_app, Hdone. simpl.
  unfold dict_get. rewrite Hk. apply resolve_keys_empty.
Qed.

Lemma resolve_absent_at_any_depth_witness :
  resolve sample_performance "overall.recall.micro.last" = Ok (VDict ∅).
Proof.
  apply (resolve_absent_at_any_depth sample_performance "overall.recall.micro.last"
           ["overall"] "recall" ["micro"; "last"]
           {[ "precision" := VFloat (S754_finite false 7 (-3));
              "num_samples" := VInt 480 ]}).
  - reflexivity.
  - vm_compute. reflexivity.
  - vm_compute. reflexivity.
Defined.

(** ** Start-up that fails, and what start-up leaves alone *)

Section StartupEdges.

Context (env : Collaborators).

(** X1.  Start-up can fail in three ways only.  The identifier file
    does not open: it raises [OSError].  The file opens but its bytes
    are not text: it raises [UnicodeDecodeError].  In both cases the
    loading service is not called and the world is as before.  Or the
    loading service raises on the text read: then start-up raises the
    same exception, after the one call.  In all three cases [artifacts]
    keeps its former binding, so a store that was unbound stays
    unbound. *)
Theorem failed_startup_keeps_store (w w' : World) (e : exn) :
  load_artifacts env w = (Raise e, w') ->
  ((files w !! Path (MODEL_DIR env) "run_id.txt" = None
    /\ (Path (MODEL_DIR env) "run_id.txt" ∉ undecodable w)
    /\ e = OSError /\ w' = w)
   \/ (files w !! Path (MODEL_DIR env) "run_id.txt" = None
       /\ (Path (MODEL_DIR env) "run_id.txt" ∈ undecodable w)
       /\ e = UnicodeDecodeError /\ w' = w)
   \/ (exists src : string,
          files w !! Path (MODEL_DIR env) "run_id.txt" = Some src
          /\ main_load_artifacts env src = Raise e
          /\ calls w' = (calls w ++ [EvLoadArtifacts src])%list))
  /\ artifacts w' = artifacts w
  /\ (artifacts w = None -> read_artifacts w' = (Raise (NameError "artifacts"), w')).
Proof.
  intros H.
  destruct (files w !! Path (MODEL_DIR env) "run_id.txt") as [src|] eqn:Hfile.
  - rewrite (load_artifacts_run env w src Hfile) in H.
    destruct (main_load_artifacts env src) as [bundle|e'] eqn:Hload; [discriminate|].
    inversion H; subst. simpl. split; [right; right; exists src; auto|].
    split; [reflexivity|]. intros Hnone. unfold read_artifacts. simpl.
    rewrite Hnone. reflexivity.
  - unfold load_artifacts in H. unfold_py. rewrite Hfile in H.
    destruct (decide (Path (MODEL_DIR env) "run_id.txt" ∈ undecodable w)) as [Hin|Hout];
      inversion H; subst.
    + split; [right; left; auto|]. split; [reflexivity|].
      intros Hnone. unfold read_artifacts. rewrite Hnone. reflexivity.
    + split; [left; auto|]. split; [reflexivity|].
      intros Hnone. unfold read_artifacts. rewrite Hnone. reflexivity.
Qed.


End StartupEdges.

Lemma failed_startup_keeps_store_witness :
  ((files garbled_world !! Path (MODEL_DIR sample_env) "run_id.txt" = None
    /\ (Path (MODEL_DIR sample_env) "run_id.txt" ∉ undecodable garbled_world)
    /\ UnicodeDecodeError = OSError /\ garbled_world = garbled_world)
   \/ (files garbled_world !! Path (MODEL_DIR sample_env) "run_id.txt" = None
       /\ (Path (MODEL_DIR sample_env) "run_id.txt" ∈ undecodable garbled_world)
       /\ UnicodeDecodeError = UnicodeDecodeError /\ garbled_world = garbled_world)
   \/ (exists src : string,
          files garbled_world !! Path (MODEL_DIR sample_env) "run_id.txt" = Some src
          /\ main_load_artifacts sample_env src = Raise UnicodeDecodeError
          /\ calls garbled_world = (calls garbled_world ++ [EvLoadArtifacts src])%list))
  /\ artifacts garbled_world = artifacts garbled_world
  /\ (artifacts garbled_world = None ->
      read_artifacts garbled_world = (Raise (NameError "artifacts"), garbled_world)).
Proof.
  apply (failed_startup_keeps_store sample_env garbled_world garbled_world
           UnicodeDecodeError).
  vm_compute. reflexivity.
Defined.

(** The three failures on the sample machines. *)
Example startup_with_garbled_file :
  load_artifacts sample_env garbled_world = (Raise UnicodeDecodeError, garbled_world).
Proof. vm_compute. reflexivity. Qed.

Example startup_with_service_down :
  fst (load_artifacts failing_env cold_world) = Raise (ServiceError "run not found")
  /\ calls (snd (load_artifacts failing_env cold_world)) = [EvLoadArtifacts run_id_text]
  /\ artifacts (snd (load_artifacts failing_env cold_world)) = None.
Proof. vm_compute. auto. Qed.

Example startup_without_file :
  load_artifacts sample_env bare_world = (Raise OSError, bare_world).
Proof. vm_compute. reflexivity. Qed.

(** ** The wrapper around a handler that fails or misbehaves *)

Section EnvelopeEdges.

Context {A : Type} (f : Request -> A -> M (gmap string value)).

Lemma construct_response_raise (request : Request) (args : A) (w w' : World) (e : exn) :
  f request args w = (Raise e, w') ->
  construct_response f request args w = (Raise e, w').
Proof. intros Hf. unfold construct_response, bind. rewrite Hf. reflexivity. Qed.

(** The wrapper does nothing to the world that the handler has not
    done. *)
Lemma construct_response_world (request : Request) (args : A) (w : World) :
  snd (construct_response f request args w) = snd (f request args w).
Proof.
  unfold construct_response, bind, lift, dict_getitem, contains,
    datetime_now_isoformat, ret.
  destruct (f request args w) as [[results|e] w1]; simpl; [|reflexivity].
  destruct (results !! "message"); simpl; [|reflexivity].
  destruct (results !! "status-code"); simpl; [|reflexivity].
  destruct (results !! "data"); reflexivity.
Qed.

(** X3.  The wrapper has no error path of its own making.  An exception
    of the handler passes through it unchanged; a handler result without
    a message raises [KeyError] on ["message"]; one with a message and
    without a status code raises [KeyError] on ["status-code"].  In no
    case is an envelope returned. *)
Theorem wrapper_failure_modes (request : Request) (args : A) (w w' : World) :
  (forall e : exn,
      f request args w = (Raise e, w') ->
      construct_response f request args w = (Raise e, w'))
  /\ (forall results : gmap string value,
         f request args w = (Ok results, w') ->
         results !! "message" = None ->
         construct_response f request args w = (Raise (KeyError "message"), w'))
  /\ (forall results : gmap string value,
         f request args w = (Ok results, w') ->
         is_Some (results !! "message") ->
         results !! "status-code" = None ->
         construct_response f request args w = (Raise (KeyError "status-code"), w')).
Proof.
  repeat apply conj.
  - intros e. apply construct_response_raise.
  - intros results Hf Hm. unfold construct_response, bind, lift, dict_getitem.
    rewrite Hf, Hm. reflexivity.
  - intros results Hf [m Hm] Hs. unfold construct_response, bind, lift, dict_getitem.
    rewrite Hf, Hm, Hs. reflexivity.
Qed.

(** X4.  The wrapper returns an envelope exactly when the handler
    returned a result that has both a message and a status code. *)
Theorem wrapper_succeeds_iff (request : Request) (args : A) (w w' : World) :
  (exists response : gmap string value,
      construct_response f request args w = (Ok response, w'))
  <->
  (exists results : gmap string value,
      f request args w = (Ok results, w')
      /\ is_Some (results !! "message")
      /\ is_Some (results !! "status-code")).
Proof.
  split.
  - intros [response Hrun].
    destruct (f request args w) as [[results|e] w1] eqn:Hf.
    + destruct (results !! "message") as [m|] eqn:Hm.
      * destruct (results !! "status-code") as [s|] eqn:Hs.
        -- rewrite (construct_response_run f request args w w1 results m s Hf Hm Hs)
             in Hrun.
           inversion Hrun; subst. exists results. rewrite Hm, Hs. eauto.
        -- unfold construct_response, bind, lift, dict_getitem in Hrun.
           rewrite Hf, Hm, Hs in Hrun. discriminate.
      * unfold construct_response, bind, lift, dict_getitem in Hrun.
        rewrite Hf, Hm in Hrun. discriminate.
    + rewrite (construct_response_raise request args w w1 e Hf) in Hrun. discriminate.
  - intros (results & Hf & [m Hm] & [s Hs]). eexists.
    apply (construct_response_run f request args w w' results m s Hf Hm Hs).
Qed.

End EnvelopeEdges.

Lemma wrapper_failure_modes_witness :
  construct_response _params sample_request tt cold_world
    = (Raise (NameError "artifacts"), cold_world)
  /\ construct_response careless_handler sample_request tt cold_world
     = (Raise (KeyError "status-code"), cold_world).
Proof.
  split.
  - destruct (wrapper_failure_modes _params sample_request tt cold_world cold_world)
      as (Hraise & _).
    apply Hraise. reflexivity.
  - destruct (wrapper_failure_modes careless_handler sample_request tt cold_world
                cold_world) as (_ & _ & Hstatus).
    apply (Hstatus {[ "message" := VStr "OK" ]}).
    + reflexivity.
    + exists (VStr "OK"). vm_compute. reflexivity.
    + vm_compute. reflexivity.
Defined.

Lemma wrapper_succeeds_iff_witness :
  exists response : gmap string value,
    construct_response _index sample_request tt bare_world = (Ok response, bare_world).
Proof.
  apply (wrapper_succeeds_iff _index sample_request tt bare_world bare_world).
  exists {[ "message" := VStr "OK"; "status-code" := VInt 200; "data" := VDict ∅ ]}.
  split; [reflexivity|]. split.
  - exists (VStr "OK"). vm_compute. reflexivity.
  - exists (VInt 200). vm_compute. reflexivity.
Defined.

(** ** The endpoints at their edges *)

(** Every handler builds its result the same way around its data. *)
Lemma _index_result request w results w' :
  _index request tt w = (Ok results, w') ->
  exists data, results = {[ "message" := VStr "OK"; "status-code" := VInt 200;
                            "data" := data ]}.
Proof. unfold _index. intros H. invert_run H. eexists. reflexivity. Qed.

Lemma _predict_result env request payload w results w' :
  _predict env request payload w = (Ok results, w') ->
  exists data, results = {[ "message" := VStr "OK"; "status-code" := VInt 200;
                            "data" := data ]}.
Proof. unfold _predict. intros H. invert_run H. eexists. reflexivity. Qed.

Lemma _params_result request w results w' :
  _params request tt w = (Ok results, w') ->
  exists data, results = {[ "message" := VStr "OK"; "status-code" := VInt 200;
                            "data" := data ]}.
Proof. unfold _params. intros H. invert_run H. eexists. reflexivity. Qed.

Lemma _param_result request param w results w' :
  _param request param w = (Ok results, w') ->
  exists data, results = {[ "message" := VStr "OK"; "status-code" := VInt 200;
                            "data" := data ]}.
Proof. unfold _param. intros H. invert_run H. eexists. reflexivity. Qed.

Lemma _performance_result request filter w results w' :
  _performance request filter w = (Ok results, w') ->
  exists data, results = {[ "message" := VStr "OK"; "status-code" := VInt 200;
                            "data" := data ]}.
Proof.
  unfold _performance. intros H.
  destruct filter as [[|c s]|]; invert_run H; eexists; reflexivity.
Qed.

(** The envelope of a result built that way has the six keys. *)
Lemma route_envelope_keys {A : Type} (f : Request -> A -> M (gmap string value))
    (request : Request) (args : A) (w w' : World) (response : gmap string value) :
  (forall results, f request args w = (Ok results, w') ->
     exists data, results = {[ "message" := VStr "OK"; "status-code" := VInt 200;
                               "data" := data ]}) ->
  construct_response f request args w = (Ok response, w') ->
  dom response = envelope_keys.
Proof.
  intros Hshape Hrun.
  destruct (construct_response_inv f request args w w' response Hrun)
    as (results & Hf & _).
  destruct (Hshape results Hf) as (data & ->).
  rewrite (construct_response_run f request args w w' _ _ _ Hf
             (ok_result_message data) (ok_result_status data)) in Hrun.
  cbv zeta in Hrun. rewrite ok_result_data in Hrun.
  inversion Hrun; subst.
  rewrite dom_insert_L, envelope_base_dom. unfold envelope_keys. set_solver.
Qed.

Section EndpointEdges.

Context (env : Collaborators).

(** X17.  Every endpoint that answers, answers with an envelope that has
    exactly the six keys message, method, status-code, timestamp, url
    and data: no endpoint ever answers without data. *)
Theorem every_endpoint_envelope_has_six_keys (request : Request)
    (payload : PredictPayload) (param : string) (filter : option string)
    (w w' : World) (response : gmap string value) :
  (route_index request tt w = (Ok response, w') -> dom response = envelope_keys)
  /\ (route_predict env request payload w = (Ok response, w') ->
      dom response = envelope_keys)
  /\ (route_params request tt w = (Ok response, w') -> dom response = envelope_keys)
  /\ (route_param request param w = (Ok response, w') -> dom response = envelope_keys)
  /\ (route_performance request filter w = (Ok response, w') ->
      dom response = envelope_keys).
Proof.
  repeat apply conj; apply route_envelope_keys; intros results.
  - apply _index_result.
  - apply _predict_result.
  - apply _params_result.
  - apply _param_result.
  - apply _performance_result.
Qed.

(** X5.  The health check answers in every world, with the store bound
    or not: message ["OK"], status code [200] and empty data; it reads
    nothing but the clock and changes nothing. *)
Theorem health_check_always_answers (request : Request) (w : World) :
  _index request tt w =
    (Ok {[ "message" := VStr "OK"; "status-code" := VInt 200; "data" := VDict ∅ ]}, w)
  /\ exists response : gmap string value,
       route_index request tt w = (Ok response, w)
       /\ response !! "data" = Some (VDict ∅)
       /\ response !! "message" = Some (VStr "OK")
       /\ response !! "status-code" = Some (VInt 200)
       /\ response !! "timestamp" = Some (VStr (clock w))
       /\ dom response = envelope_keys.
Proof.
  split; [reflexivity|].
  assert (Hf : _index request tt w =
            (Ok {[ "message" := VStr (HTTPStatus.phrase HTTPStatus.OK);
                   "status-code" := HTTPStatus.to_value HTTPStatus.OK;
                   "data" := VDict ∅ ]}, w)) by reflexivity.
  eexists. split.
  { apply (construct_response_run _index request tt w w _ _ _ Hf
             (ok_result_message _) (ok_result_status _)). }
  cbv zeta. rewrite ok_result_data.
  split; [apply lookup_insert_eq|].
  rewrite !(lookup_insert_ne _ "data"); try discriminate.
  split; [simplify_map_eq; reflexivity|].
  split; [simplify_map_eq; reflexivity|].
  split; [simplify_map_eq; reflexivity|].
  rewrite dom_insert_L, envelope_base_dom. unfold envelope_keys. set_solver.
Qed.

(** X6.  With a loaded store, the listing returns all the parameters of
    the run, as the mapping of the namespace, and the single-parameter
    endpoint agrees with it: for every name, the value it returns is the
    entry of the listing under that name, and the empty string exactly
    when the listing has no such entry or has the empty string there. *)
Theorem params_listing_and_lookup_agree (request : Request) (w : World)
    (bundle : value) (params : gmap string value) :
  artifacts w = Some bundle ->
  getitem bundle "params" = Ok (VNamespace params) ->
  _params request tt w =
    (Ok {[ "message" := VStr "OK"; "status-code" := VInt 200;
           "data" := VDict {[ "params" := VDict params ]} ]}, w)
  /\ (exists response : gmap string value,
        route_params request tt w = (Ok response, w)
        /\ response !! "data" = Some (VDict {[ "params" := VDict params ]}))
  /\ (forall param : string,
        exists v : value,
          _param request param w =
            (Ok {[ "message" := VStr "OK"; "status-code" := VInt 200;
                   "data" := VDict {[ "params" := VDict {[ param := v ]} ]} ]}, w)
          /\ (params !! param = Some v
              \/ (params !! param = None /\ v = VStr ""))).
Proof.
  intros Hart Hparams.
  assert (Hrun : _params request tt w =
            (Ok {[ "message" := VStr "OK"; "status-code" := VInt 200;
                   "data" := VDict {[ "params" := VDict params ]} ]}, w)).
  { unfold _params. unfold_py. rewrite Hart, Hparams. reflexivity. }
  split; [exact Hrun|]. split; [apply (route_data _params), Hrun|].
  intros param. exists (dict_get params param (VStr "")). split.
  - unfold _param. unfold_py. rewrite Hart, Hparams. reflexivity.
  - unfold dict_get. destruct (params !! param); auto.
Qed.

(** X7.  The health check, the two parameter endpoints and the
    performance endpoint are pure reads: whether they answer or raise,
    bare or behind the wrapper, the world after the call is the world
    before it. *)
Theorem read_endpoints_leave_world (request : Request) (param : string)
    (filter : option string) (w : World) :
  snd (_index request tt w) = w
  /\ snd (_params request tt w) = w
  /\ snd (_param request param w) = w
  /\ snd (_performance request filter w) = w
  /\ snd (route_index request tt w) = w
  /\ snd (route_params request tt w) = w
  /\ snd (route_param request param w) = w
  /\ snd (route_performance request filter w) = w.
Proof.
  assert (Hindex : snd (_index request tt w) = w) by reflexivity.
  assert (Hparams : snd (_params request tt w) = w).
  { unfold _params. unfold_py. destruct (artifacts w) as [bundle|]; [|reflexivity].
    destruct (getitem bundle "params") as [ns|]; [|reflexivity].
    destruct (vars ns); reflexivity. }
  assert (Hparam : snd (_param request param w) = w).
  { unfold _param. unfold_py. destruct (artifacts w) as [bundle|]; [|reflexivity].
    destruct (getitem bundle "params") as [ns|]; [|reflexivity].
    destruct (vars ns); reflexivity. }
  assert (Hperf : snd (_performance request filter w) = w).
  { unfold _performance. unfold_py. destruct (artifacts w) as [bundle|]; [|reflexivity].
    destruct (getitem bundle "performance") as [p|]; [|reflexivity].
    destruct filter as [[|c s]|]; try reflexivity.
    destruct (resolve p (String c s)); reflexivity. }
  unfold route_index, route_params, route_param, route_performance.
  rewrite !construct_response_world. auto 10.
Qed.


(** X9.  A failure of the prediction service surfaces unchanged: with a
    loaded store, when the service raises on the texts of the payload,
    the predict endpoint raises the same exception, bare and behind the
    wrapper, after the one call; no envelope and no partial result is
    returned. *)
Theorem predict_service_failure_surfaces (request : Request) (payload : PredictPayload)
    (w : World) (bundle : value) (e : exn) :
  artifacts w = Some bundle ->
  predict_predict env (map text (texts payload)) bundle = Raise e ->
  exists w' : World,
    _predict env request payload w = (Raise e, w')
    /\ route_predict env request payload w = (Raise e, w')
    /\ predict_calls (calls w') =
       (predict_calls (calls w) ++ [(map text (texts payload), bundle)])%list
    /\ artifacts w' = Some bundle.
Proof.
  intros Hart Hcall.
  assert (Hrun : _predict env request payload w =
            (Raise e, mkWorld (Some bundle) (files w) (undecodable w) (clock w)
                        (calls w ++ [EvPredict (map text (texts payload)) bundle]))).
  { unfold _predict. unfold_py. rewrite Hart. simpl. rewrite Hcall, Hart. reflexivity. }
  eexists. split; [exact Hrun|].
  split; [apply (construct_response_raise (_predict env)), Hrun|].
  simpl. split; [rewrite predict_calls_app; reflexivity | reflexivity].
Qed.

(** X10.  A bundle that lacks the entry an endpoint reads makes that
    endpoint raise [KeyError] on the entry's name, bare and behind the
    wrapper: ["params"] for the two parameter endpoints, ["performance"]
    for the performance endpoint, whatever its filter.  Parameters
    stored as a plain mapping instead of a namespace make [vars] raise
    [TypeError]. *)
Theorem bundle_without_entry_raises (request : Request) (param : string)
    (filter : option string) (w : World) (d : gmap string value) :
  artifacts w = Some (VDict d) ->
  (d !! "params" = None ->
     _params request tt w = (Raise (KeyError "params"), w)
     /\ _param request param w = (Raise (KeyError "params"), w)
     /\ route_params request tt w = (Raise (KeyError "params"), w)
     /\ route_param request param w = (Raise (KeyError "params"), w))
  /\ (d !! "performance" = None ->
        _performance request filter w = (Raise (KeyError "performance"), w)
        /\ route_performance request filter w = (Raise (KeyError "performance"), w))
  /\ (forall ps : gmap string value,
        d !! "params" = Some (VDict ps) ->
        _params request tt w = (Raise TypeError, w)
        /\ _param request param w = (Raise TypeError, w)).
Proof.
  intros Hart. repeat apply conj.
  - intros Hnone.
    assert (H1 : _params request tt w = (Raise (KeyError "params"), w)).
    { unfold _params. unfold_py. rewrite Hart. simpl. unfold dict_getitem.
      rewrite Hnone. reflexivity. }
    assert (H2 : _param request param w = (Raise (KeyError "params"), w)).
    { unfold _param. unfold_py. rewrite Hart. simpl. unfold dict_getitem.
      rewrite Hnone. reflexivity. }
    repeat split; trivial.
    + apply (construct_response_raise _params), H1.
    + apply (construct_response_raise _param), H2.
  - intros Hnone.
    assert (H1 : _performance request filter w = (Raise (KeyError "performance"), w)).
    { unfold _performance. unfold_py. rewrite Hart. simpl. unfold dict_getitem.
      rewrite Hnone. reflexivity. }
    split; [exact H1|]. apply (construct_response_raise _performance), H1.
  - intros ps Hps. split.
    + unfold _params. unfold_py. rewrite Hart. simpl. unfold dict_getitem.
      rewrite Hps. reflexivity.
    + unfold _param. unfold_py. rewrite Hart. simpl. unfold dict_getitem.
      rewrite Hps. reflexivity.
Qed.

(** X11.  A filter that descends below a value that is not a mapping
    fails the whole request: when resolving the filter raises, the
    performance endpoint raises the same exception, bare and behind the
    wrapper, and returns no envelope. *)
Theorem performance_filter_failure_surfaces (request : Request) (f : string)
    (w : World) (bundle p : value) (e : exn) :
  f <> "" ->
  artifacts w = Some bundle ->
  getitem bundle "performance" = Ok p ->
  resolve p f = Raise e ->
  _performance request (Some f) w = (Raise e, w)
  /\ route_performance request (Some f) w = (Raise e, w).
Proof.
  intros Hf Hart Hperf Hres.
  assert (Hrun : _performance request (Some f) w = (Raise e, w)).
  { destruct f as [|c s]; [congruence|].
    unfold _performance. unfold_py. rewrite Hart, Hperf, Hres. reflexivity. }
  split; [exact Hrun|]. apply (construct_response_raise _performance), Hrun.
Qed.

(** X16.  Start-up and the endpoints, end to end: from any world in
    which the identifier file can be read and the loading service
    answers, start-up followed by a request for the parameters, or for
    the unfiltered performance, returns an envelope whose data are the
    loaded bundle's own, the store having been unbound before or not. *)
Theorem startup_then_endpoints_answer (request : Request) (w : World)
    (src : string) (bundle p : value) (params : gmap string value) :
  files w !! Path (MODEL_DIR env) "run_id.txt" = Some src ->
  main_load_artifacts env src = Ok bundle ->
  getitem bundle "params" = Ok (VNamespace params) ->
  getitem bundle "performance" = Ok p ->
  exists w' : World,
    load_artifacts env w = (Ok tt, w')
    /\ (exists response : gmap string value,
          bind (load_artifacts env) (fun _ => route_params request tt) w
            = (Ok response, w')
          /\ response !! "data" = Some (VDict {[ "params" := VDict params ]}))
    /\ (exists response : gmap string value,
          bind (load_artifacts env) (fun _ => route_performance request None) w
            = (Ok response, w')
          /\ response !! "data" = Some (VDict {[ "performance" := p ]})).
Proof.
  intros Hfile Hload Hparams Hperf.
  pose proof (load_artifacts_run env w src Hfile) as Hstart.
  rewrite Hload in Hstart.
  eexists. split; [exact Hstart|]. split.
  - unfold bind at 1. rewrite Hstart.
    apply (route_data _params). unfold _params. unfold_py. simpl.
    rewrite Hparams. reflexivity.
  - unfold bind at 1. rewrite Hstart.
    apply (route_data _performance). unfold _performance. unfold_py. simpl.
    rewrite Hperf. reflexivity.
Qed.

End EndpointEdges.

(** ** The edge statements on the sample run *)

Lemma every_endpoint_envelope_has_six_keys_witness :
  dom (<[ "data" := VDict {[ "params" := VDict sample_params ]} ]>
         {[ "message" := VStr "OK"; "method" := VStr "GET";
            "status-code" := VInt 200;
            "timestamp" := VStr "2021-03-01T10:15:30.000250";
            "url" := VStr "http://localhost:5000/performance" ]}
       : gmap string value) = envelope_keys.
Proof.
  destruct (every_endpoint_envelope_has_six_keys sample_env sample_request
              sample_payload "dropout" None warm_world warm_world
              (<[ "data" := VDict {[ "params" := VDict sample_params ]} ]>
                 {[ "message" := VStr "OK"; "method" := VStr "GET";
                    "status-code" := VInt 200;
                    "timestamp" := VStr "2021-03-01T10:15:30.000250";
                    "url" := VStr "http://localhost:5000/performance" ]}))
    as (_ & _ & Hparams & _).
  apply Hparams. vm_compute. reflexivity.
Defined.

Lemma params_listing_and_lookup_agree_witness :
  _params sample_request tt warm_world =
    (Ok {[ "message" := VStr "OK"; "status-code" := VInt 200;
           "data" := VDict {[ "params" := VDict sample_params ]} ]}, warm_world)
  /\ (exists response : gmap string value,
        route_params sample_request tt warm_world = (Ok response, warm_world)
        /\ response !! "data" = Some (VDict {[ "params" := VDict sample_params ]}))
  /\ (forall param : string,
        exists v : value,
          _param sample_request param warm_world =
            (Ok {[ "message" := VStr "OK"; "status-code" := VInt 200;
                   "data" := VDict {[ "params" := VDict {[ param := v ]} ]} ]},
             warm_world)
          /\ (sample_params !! param = Some v
              \/ (sample_params !! param = None /\ v = VStr ""))).
Proof.
  apply (params_listing_and_lookup_agree sample_request warm_world sample_bundle
           sample_params).
  - reflexivity.
  - vm_compute. reflexivity.
Defined.

Lemma predict_service_failure_surfaces_witness :
  exists w' : World,
    _predict failing_env sample_request sample_payload warm_world
      = (Raise (ServiceError "model unavailable"), w')
    /\ route_predict failing_env sample_request sample_payload warm_world
       = (Raise (ServiceError "model unavailable"), w')
    /\ predict_calls (calls w') =
       (predict_calls (calls warm_world)
          ++ [(map text (texts sample_payload), sample_bundle)])%list
    /\ artifacts w' = Some sample_bundle.
Proof.
  apply (predict_service_failure_surfaces failing_env sample_request sample_payload
           warm_world sample_bundle (ServiceError "model unavailable"));
    reflexivity.
Defined.

Lemma bundle_without_entry_raises_witness :
  _params sample_request tt hollow_world = (Raise (KeyError "params"), hollow_world)
  /\ _performance sample_request (Some "overall") hollow_world
     = (Raise (KeyError "performance"), hollow_world).
Proof.
  destruct (bundle_without_entry_raises sample_request "dropout" (Some "overall")
              hollow_world ∅ eq_refl) as (Hparams & Hperformance & _).
  split.
  - apply Hparams. apply lookup_empty.
  - apply Hperformance. apply lookup_empty.
Defined.

Lemma performance_filter_failure_surfaces_witness :
  _performance sample_request (Some "overall.precision.mean") warm_world
    = (Raise (AttributeError "get"), warm_world)
  /\ route_performance sample_request (Some "overall.precision.mean") warm_world
     = (Raise (AttributeError "get"), warm_world).
Proof.
  apply (performance_filter_failure_surfaces sample_request "overall.precision.mean"
           warm_world sample_bundle sample_performance (AttributeError "get")).
  - discriminate.
  - reflexivity.
  - vm_compute. reflexivity.
  - vm_compute. reflexivity.
Defined.

Lemma startup_then_endpoints_answer_witness :
  exists w' : World,
    load_artifacts sample_env cold_world = (Ok tt, w')
    /\ (exists response : gmap string value,
          bind (load_artifacts sample_env) (fun _ => route_params sample_request tt)
            cold_world = (Ok response, w')
          /\ response !! "data" = Some (VDict {[ "params" := VDict sample_params ]}))
    /\ (exists response : gmap string value,
          bind (load_artifacts sample_env)
            (fun _ => route_performance sample_request None) cold_world
            = (Ok response, w')
          /\ response !! "data" =
             Some (VDict {[ "performance" := sample_performance ]})).
Proof.
  apply (startup_then_endpoints_answer sample_env sample_request cold_world
           run_id_text sample_bundle sample_performance sample_params).
  - vm_compute. reflexivity.
  - reflexivity.
  - vm_compute. reflexivity.
  - vm_compute. reflexivity.
Defined.

(** ** The segments of a filter *)

Lemma split_pieces_sep_free sep s :
  Forall (fun piece => has_sep sep piece = false) (split sep s).
Proof.
  induction s as [|c s IH]; simpl.
  - constructor; [reflexivity | constructor].
  - destruct (Ascii.eqb c sep) eqn:Hc.
    + constructor; [reflexivity | exact IH].
    + destruct (split sep s) as [|w ws]; [repeat constructor; simpl; rewrite Hc; reflexivity|].
      inversion IH; subst. constructor; [|assumption].
      simpl. rewrite Hc. assumption.
Qed.

(** X18.  The filter never looks up a key that contains a dot: every
    segment of a split filter is free of dots, and there is at least one
    segment.  An entry stored under a name with a dot in it can therefore
    not be addressed by any filter. *)
Theorem filter_segments_are_dot_free (path : string) :
  split "." path <> []
  /\ Forall (fun key => has_sep "." key = false) (split "." path)
  /\ (forall key : string, has_sep "." key = true -> ~ In key (split "." path)).
Proof.
  split; [apply split_nonempty|].
  split; [apply split_pieces_sep_free|].
  intros key Hkey Hin.
  pose proof (split_pieces_sep_free "." path) as Hall.
  rewrite List.Forall_forall in Hall. rewrite (Hall key Hin) in Hkey. discriminate.
Qed.

(** X19.  Empty segments are looked up like any other key: a filter
    with a trailing dot resolves the part before the dot and then asks
    for the entry stored under the empty string, which on a mapping
    without such an entry gives the empty mapping. *)
Theorem trailing_dot_looks_up_empty_key (p : value) (a : string) :
  resolve p (a ++ ".") = rbind (resolve p a) (fun v => get v "" (VDict ∅)).
Proof.
  unfold resolve. change (a ++ ".") with (a ++ String "." EmptyString).
  rewrite split_app_sep, resolve_keys_app. simpl.
  destruct (resolve_keys p (split "." a)) as [v|e]; simpl; [|reflexivity].
  destruct (get v "" (VDict ∅)); reflexivity.
Qed.

Lemma filter_segments_are_dot_free_witness :
  ~ In "overall.precision" (split "." "overall.precision").
Proof.
  destruct (filter_segments_are_dot_free "overall.precision") as (_ & _ & Hnever).
  apply Hnever. reflexivity.
Defined.
